(** * RadioButton.Item

    A shallow embedding of [src/components/RadioButton/RadioButtonItem.tsx]:
    the props of the item, the element tree its [render] method returns, and
    the small part of the host framework the properties below talk about
    (context consumption, style flattening, touch targeting).

    Callbacks are JavaScript functions of type [() => void] and
    [(value: string) => void]; they are embedded as transformers of an
    application state [W] that the item itself never inspects. *)

From stdpp Require Import base option strings gmap list.

Open Scope string_scope.

Set Warnings "-register-all".

(** ** Style values

    [StyleProp<T>] is a style object, a falsy value, or a (nested) array of
    those. Style objects are finite maps from attribute names to values. *)

Inductive StyleValue :=
| SStr (s : string)
| SNum (n : Z).

Inductive StyleProp :=
| StyleFalsy
| StyleObject (o : gmap string StyleValue)
| StyleArray (l : list StyleProp).

(** React Native's [StyleSheet.flatten]: entries of an array are merged from
    left to right, a later entry overwriting the attributes it defines;
    falsy entries contribute nothing. ([∪] on [gmap] prefers its left
    operand, so the later entry goes on the left.) *)
Fixpoint flatten (s : StyleProp) : gmap string StyleValue :=
  match s with
  | StyleFalsy => ∅
  | StyleObject o => o
  | StyleArray l => foldl (fun acc x => flatten x ∪ acc) ∅ l
  end.

(** [const styles = StyleSheet.create({ container: ..., label: ... })] *)
Definition styles_container : StyleProp :=
  StyleObject
    (<["flexDirection" := SStr "row"]>
       (<["alignItems" := SStr "center"]>
          (<["justifyContent" := SStr "space-between"]>
             (<["paddingVertical" := SNum 8]>
                (<["paddingHorizontal" := SNum 16]> ∅))))).

Definition styles_label : StyleProp :=
  StyleObject (<["fontSize" := SNum 16]> ∅).

(** ** Theme: only [theme.colors.text] is read by the item. *)

Record Colors := { text : string }.
Record Theme := { colors : Colors }.

(** [status?: 'checked' | 'unchecked'] *)
Inductive Status := checked | unchecked.

#[global] Instance Status_eq_dec : EqDecision Status.
Proof. solve_decision. Defined.

(** [pointerEvents?: 'box-none' | 'none' | 'box-only' | 'auto'] *)
Inductive PointerEvents := pe_box_none | pe_none | pe_box_only | pe_auto.

(** JavaScript truthiness of an optional boolean ([disabled?: boolean]). *)
Definition truthy (b : option bool) : bool :=
  match b with
  | Some true => true
  | _ => false
  end.

Section Item.

(** The state the callbacks act on. *)
Variable W : Type.

(** A computation that may change the application state. *)
Definition Eff (A : Type) : Type := W -> A * W.

Definition ret {A} (a : A) : Eff A := fun w => (a, w).

Definition bind {A B} (m : Eff A) (k : A -> Eff B) : Eff B :=
  fun w => let '(a, w') := m w in k a w'.

Notation "m ;;; k" := (bind m (fun _ => k))
  (at level 100, right associativity).

(** Run a computation for the state it leaves behind. *)
Definition exec {A} (m : Eff A) (w : W) : W := snd (m w).

(** [RadioButtonContextType], as read by the item: the selected value and
    the change callback. *)
Record RadioButtonContextType := {
  ctx_value : option string;
  ctx_onValueChange : option (string -> Eff unit);
}.

(** [type Props] *)
Record Props := {
  value : string;
  label : string;
  disabled : option bool;
  onPress : option (Eff unit);
  uncheckedColor : option string;
  color : option string;
  status : option Status;
  style : StyleProp;
  labelStyle : StyleProp;
  theme : Theme;
}.

(** The props the item hands to [<RadioButton>]. *)
Record RadioButtonProps := {
  rb_value : string;
  rb_disabled : option bool;
  rb_status : option Status;
  rb_color : option string;
  rb_uncheckedColor : option string;
}.

(** The argument object of [handlePress]. *)
Record HandlePressArgs := {
  hp_onPress : option (Eff unit);
  hp_onValueChange : option (string -> Eff unit);
  hp_value : string;
}.

(** The elements the item renders. *)
Inductive Element :=
| RadioButtonContext_Consumer
    (children : option RadioButtonContextType -> Element)
| TouchableRipple (press : option (Eff unit)) (child : Element)
| View (st : StyleProp) (pointerEvents : option PointerEvents)
    (children : list Element)
| Text (st : StyleProp) (children : string)
| RadioButton (rb : RadioButtonProps).

(** A class component instance: [this.props] and [this.state]. The state
    type [S] is arbitrary; [RadioButtonItem] declares none. *)
Record Component (S : Type) := {
  props : Props;
  state : S;
}.
Arguments props {S} _.
Arguments state {S} _.

(** [context?.onValueChange] *)
Definition context_onValueChange (context : option RadioButtonContextType)
  : option (string -> Eff unit) :=
  match context with
  | Some c => ctx_onValueChange c
  | None => None
  end.

(** ** The host framework, as far as the item relies on it *)

(** React calls the function child of a [Consumer] with the value of the
    nearest provider, or with nothing when there is none. *)
Fixpoint consume (context : option RadioButtonContextType) (e : Element)
  : Element :=
  match e with
  | RadioButtonContext_Consumer k => consume context (k context)
  | TouchableRipple h c => TouchableRipple h (consume context c)
  | View s pe cs => View s pe (map (consume context) cs)
  | Text s t => Text s t
  | RadioButton rb => RadioButton rb
  end.

(** All elements of a tree, parents before children, left to right. *)
Fixpoint elements (e : Element) : list Element :=
  e :: match e with
       | RadioButtonContext_Consumer _ => []
       | TouchableRipple _ c => elements c
       | View _ _ cs => flat_map elements cs
       | Text _ _ => []
       | RadioButton _ => []
       end.

(** The props of every [<RadioButton>] in a tree. *)
Definition indicators (e : Element) : list RadioButtonProps :=
  omap (fun x => match x with RadioButton rb => Some rb | _ => None end)
       (elements e).

(** Style and content of every [<Text>] in a tree. *)
Definition texts (e : Element) : list (StyleProp * string) :=
  omap (fun x => match x with Text s t => Some (s, t) | _ => None end)
       (elements e).

(** The [onPress] prop of the row, when the row is a [<TouchableRipple>]. *)
Definition row_onPress (e : Element) : option (Eff unit) :=
  match e with
  | TouchableRipple h _ => h
  | _ => None
  end.

(** Modelled from the spec: [TouchableRipple] (../TouchableRipple) is not
    among the sources. A press on the row runs the attached handler; with
    no handler attached interaction is suppressed entirely and nothing
    runs. *)
Definition pressRow (e : Element) : Eff unit :=
  match row_onPress e with
  | Some h => h
  | None => ret tt
  end.

(** What answers a touch at some point of the tree. *)
Inductive Responder :=
| NoResponder
| ByTouchable (press : option (Eff unit))
| ByIndicator (rb : RadioButtonProps).

(** Whether a view keeps touches away from its subviews: React Native's
    [pointerEvents], where ['none'] and ['box-only'] make the subviews
    no targets of touch events. *)
Definition shields (pe : option PointerEvents) : bool :=
  match pe with
  | Some pe_none | Some pe_box_only => true
  | Some pe_box_none | Some pe_auto | None => false
  end.

(** The responder of a touch on the element reached by path [p] (child
    indices from the root): the innermost touchable on the way that is
    not shielded by an enclosing view. A [<RadioButton>] is a touchable
    of its own. [None] when the path leaves the tree. *)
Fixpoint hit (shielded : bool) (cur : Responder) (e : Element)
  (p : list nat) {struct e} : option Responder :=
  match e with
  | RadioButtonContext_Consumer _ => None
  | TouchableRipple h c =>
      let cur' := if shielded then cur else ByTouchable h in
      match p with
      | [] => Some cur'
      | O :: p' => hit shielded cur' c p'
      | _ => None
      end
  | View _ pe cs =>
      match p with
      | [] => Some cur
      | i :: p' =>
          (fix child (cs : list Element) (i : nat) {struct cs} :=
             match cs, i with
             | [], _ => None
             | c :: _, O => hit (shielded || shields pe) cur c p'
             | _ :: cs', Datatypes.S i' => child cs' i'
             end) cs i
      end
  | Text _ _ =>
      match p with
      | [] => Some cur
      | _ => None
      end
  | RadioButton rb =>
      match p with
      | [] => Some (if shielded then cur else ByIndicator rb)
      | _ => None
      end
  end.

Definition responder (e : Element) (p : list nat) : option Responder :=
  hit false NoResponder e p.

(** ** Collaborators that are not among the sources *)

(** Modelled from the spec: [handlePress] (./utils) is not among the
    sources. Section 4.2 of the spec: if the item's [onPress] is present,
    invoke it with no arguments; if the group's [onValueChange] is
    present, invoke it with the item's value; [onPress] goes first;
    there is no return value and no error condition. *)
Definition resolvePress (a : HandlePressArgs) : Eff unit :=
  (match hp_onPress a with
   | Some f => f
   | None => ret tt
   end) ;;;
  (match hp_onValueChange a with
   | Some g => g (hp_value a)
   | None => ret tt
   end).

(** Modelled from the spec: [RadioButton] (./RadioButton) is not among the
    sources. Section 4.3 of the spec: the indicator shows the explicit
    [status] if provided; otherwise it is checked iff the channel is
    present and its value equals the item's value; otherwise it is
    unchecked. *)
Definition RadioButton_checked (context : option RadioButtonContextType)
  (rb : RadioButtonProps) : bool :=
  match rb_status rb with
  | Some s => bool_decide (s = checked)
  | None =>
      match context with
      | Some c => bool_decide (ctx_value c = Some (rb_value rb))
      | None => false
      end
  end.

Section Render.

(** [import { handlePress } from './utils'] *)
Variable handlePress : HandlePressArgs -> Eff unit.

Variable S : Type.

(** [RadioButtonItem.render]. The method is given the instance and
    returns the element together with the instance it leaves behind. *)
Definition render (this : Component S) : Element * Component S :=
  let value := value (props this) in
  let label := label (props this) in
  let style := style (props this) in
  let labelStyle := labelStyle (props this) in
  let onPress := onPress (props this) in
  let disabled := disabled (props this) in
  let color := color (props this) in
  let uncheckedColor := uncheckedColor (props this) in
  let status := status (props this) in
  let colors := colors (theme (props this)) in
  (RadioButtonContext_Consumer (fun context =>
     TouchableRipple
       (if truthy disabled
        then None
        else Some (handlePress
                     {| hp_onPress := onPress;
                        hp_onValueChange := context_onValueChange context;
                        hp_value := value |}))
       (View (StyleArray [styles_container; style]) (Some pe_none)
          [ Text (StyleArray [styles_label;
                              StyleObject {[ "color" := SStr (text colors) ]};
                              labelStyle])
              label;
            RadioButton
              {| rb_value := value;
                 rb_disabled := disabled;
                 rb_status := status;
                 rb_color := color;
                 rb_uncheckedColor := uncheckedColor |} ])),
   this).

End Render.

(** The tree shown for an instance under an ambient channel. *)
Definition rendered (handlePress : HandlePressArgs -> Eff unit) (S : Type)
  (this : Component S) (context : option RadioButtonContextType)
  : Element :=
  consume context (fst (render handlePress S this)).

(** Checked state of each indicator of the item under a channel. *)
Definition indicatorChecked (handlePress : HandlePressArgs -> Eff unit)
  (S : Type) (this : Component S)
  (context : option RadioButtonContextType) : list bool :=
  map (RadioButton_checked context)
      (indicators (rendered handlePress S this context)).

End Item.

Arguments ret {W A} a.
Arguments bind {W A B} m k.
Arguments exec {W A} m w.
Arguments Build_RadioButtonContextType {W}.
Arguments ctx_value {W}.
Arguments ctx_onValueChange {W}.
Arguments Build_Props {W}.
Arguments value {W}.
Arguments label {W}.
Arguments disabled {W}.
Arguments onPress {W}.
Arguments uncheckedColor {W}.
Arguments color {W}.
Arguments status {W}.
Arguments style {W}.
Arguments labelStyle {W}.
Arguments theme {W}.
Arguments Build_HandlePressArgs {W}.
Arguments hp_onPress {W}.
Arguments hp_onValueChange {W}.
Arguments hp_value {W}.
Arguments RadioButtonContext_Consumer {W}.
Arguments TouchableRipple {W}.
Arguments View {W}.
Arguments Text {W}.
Arguments RadioButton {W}.
Arguments Build_Component {W S}.
Arguments props {W S}.
Arguments state {W S}.
Arguments context_onValueChange {W}.
Arguments consume {W}.
Arguments elements {W}.
Arguments indicators {W}.
Arguments texts {W}.
Arguments row_onPress {W}.
Arguments pressRow {W}.
Arguments NoResponder {W}.
Arguments ByTouchable {W}.
Arguments ByIndicator {W}.
Arguments hit {W}.
Arguments responder {W}.
Arguments resolvePress {W}.
Arguments RadioButton_checked {W}.
Arguments render {W} handlePress {S}.
Arguments rendered {W} handlePress {S}.
Arguments indicatorChecked {W} handlePress {S}.

(** ** Observing calls

    To watch which callbacks a press reaches, and in which order, let the
    application state be the log of the calls made so far. *)

Inductive Call :=
| CallOnPress
| CallOnValueChange (arg : string).

Definition logOnPress : Eff (list Call) unit :=
  fun w => (tt, (w ++ [CallOnPress])%list).

Definition logOnValueChange (v : string) : Eff (list Call) unit :=
  fun w => (tt, (w ++ [CallOnValueChange v])%list).

(** Modelled from the spec: [RadioButton.Group] (./RadioButtonGroup) is not
    among the sources. The owner of the channel holds the selected value;
    the channel it provides shows that value and a callback that replaces
    it. Here the application state is the selected value itself. *)
Definition groupChannel (selected : option string)
  : RadioButtonContextType (option string) :=
  {| ctx_value := selected;
     ctx_onValueChange := Some (fun v _ => (tt, Some v)) |}.

(** Two props that differ at most in [style] and [labelStyle]. *)
Definition with_styles {W} (p : Props W) (s ls : StyleProp) : Props W :=
  {| value := value p;
     label := label p;
     disabled := disabled p;
     onPress := onPress p;
     uncheckedColor := uncheckedColor p;
     color := color p;
     status := status p;
     style := s;
     labelStyle := ls;
     theme := theme p |}.

(** Sample items used in the examples below. *)
Definition paper : Theme := {| colors := {| text := "#000000" |} |}.

Definition item {W} (v l : string) (d : option bool)
  (f : option (Eff W unit)) (st : option Status) : Component W unit :=
  {| props := {| value := v; label := l; disabled := d; onPress := f;
                 uncheckedColor := None; color := None; status := st;
                 style := StyleFalsy; labelStyle := StyleFalsy;
                 theme := paper |};
     state := tt |}.

(** Style and [pointerEvents] of every [<View>] in a tree. *)
Definition views {W} (e : Element W)
  : list (StyleProp * option PointerEvents) :=
  omap (fun x => match x with View s pe _ => Some (s, pe) | _ => None end)
       (elements e).

(** What the row wraps: the child of the [<TouchableRipple>]. *)
Definition row_child {W} (e : Element W) : option (Element W) :=
  match e with
  | TouchableRipple _ c => Some c
  | _ => None
  end.

(** Props that differ at most in [onPress]. *)
Definition with_onPress {W} (p : Props W) (f : option (Eff W unit))
  : Props W :=
  {| value := value p;
     label := label p;
     disabled := disabled p;
     onPress := f;
     uncheckedColor := uncheckedColor p;
     color := color p;
     status := status p;
     style := style p;
     labelStyle := labelStyle p;
     theme := theme p |}.

(** * Properties *)

(** ** Style flattening *)

Lemma flatten_snoc (l : list StyleProp) (x : StyleProp) :
  flatten (StyleArray (l ++ [x])%list) = flatten x ∪ flatten (StyleArray l).
Proof. cbn [flatten]. by rewrite foldl_app. Qed.

Lemma flatten_last_wins (l : list StyleProp) (x : StyleProp) (k : string) :
  flatten (StyleArray (l ++ [x])%list) !! k =
  match flatten x !! k with
  | Some v => Some v
  | None => flatten (StyleArray l) !! k
  end.
Proof.
  rewrite flatten_snoc, lookup_union.
  destruct (flatten x !! k), (flatten (StyleArray l) !! k); reflexivity.
Qed.

Section Properties.

Context {W S : Type}.
Implicit Types (hp : HandlePressArgs W -> Eff W unit).
Implicit Types (this : Component W S).
Implicit Types (context : option (RadioButtonContextType W)).

Lemma rendered_unfold hp this context :
  rendered hp this context =
  TouchableRipple
    (if truthy (disabled (props this)) then None
     else Some (hp {| hp_onPress := onPress (props this);
                      hp_onValueChange := context_onValueChange context;
                      hp_value := value (props this) |}))
    (View (StyleArray [styles_container; style (props this)])
       (Some pe_none)
       [ Text (StyleArray
                 [styles_label;
                  StyleObject {[ "color" := SStr (text (colors (theme (props this)))) ]};
                  labelStyle (props this)])
           (label (props this));
         RadioButton
           {| rb_value := value (props this);
              rb_disabled := disabled (props this);
              rb_status := status (props this);
              rb_color := color (props this);
              rb_uncheckedColor := uncheckedColor (props this) |} ]).
Proof. reflexivity. Qed.

Lemma indicators_rendered hp this context :
  indicators (rendered hp this context) =
  [ {| rb_value := value (props this);
       rb_disabled := disabled (props this);
       rb_status := status (props this);
       rb_color := color (props this);
       rb_uncheckedColor := uncheckedColor (props this) |} ].
Proof. reflexivity. Qed.

Lemma row_onPress_rendered hp this context :
  row_onPress (rendered hp this context) =
  if truthy (disabled (props this)) then None
  else Some (hp {| hp_onPress := onPress (props this);
                   hp_onValueChange := context_onValueChange context;
                   hp_value := value (props this) |}).
Proof. reflexivity. Qed.

(** What [resolvePress] leaves behind, callback by callback. *)
Lemma resolvePress_exec (a : HandlePressArgs W) (w : W) :
  resolvePress a w =
  (tt,
   let w1 := match hp_onPress a with
             | Some f => exec f w
             | None => w
             end in
   match hp_onValueChange a with
   | Some g => exec (g (hp_value a)) w1
   | None => w1
   end).
Proof.
  unfold resolvePress, bind, exec, ret.
  destruct (hp_onPress a) as [f|], (hp_onValueChange a) as [g|]; cbn.
  - destruct (f w) as [[] w1]; cbn. by destruct (g (hp_value a) w1) as [[] w2].
  - by destruct (f w) as [[] w1].
  - by destruct (g (hp_value a) w) as [[] w2].
  - reflexivity.
Qed.

(** ** The indicator *)

(** C1. The checked state of the item's indicator is the explicit
    [status] when one is given; without one it is checked exactly when a
    channel is present whose value is the item's value; with neither a
    status nor a channel it is unchecked whatever the value. *)
Theorem indicator_checked_state hp this context :
  indicatorChecked hp this context =
  [ match status (props this) with
    | Some s => bool_decide (s = checked)
    | None =>
        match context with
        | Some c => bool_decide (ctx_value c = Some (value (props this)))
        | None => false
        end
    end ].
Proof.
  unfold indicatorChecked. rewrite indicators_rendered.
  cbn [map]. unfold RadioButton_checked. cbn [rb_status rb_value].
  reflexivity.
Qed.

(** ** Pressing the row *)

(** C2. A press on an item that is not disabled runs the item's [onPress]
    (which takes no argument) when present, and then, when there is a
    channel and it carries an [onValueChange], that callback, on the state
    [onPress] left behind and with the item's own [value] as argument,
    whatever value the channel holds. *)
Theorem press_enabled_dispatch this context (w : W) :
  truthy (disabled (props this)) = false ->
  pressRow (rendered resolvePress this context) w =
  (tt,
   let w1 := match onPress (props this) with
             | Some f => exec f w
             | None => w
             end in
   match context with
   | Some {| ctx_value := _; ctx_onValueChange := Some g |} =>
       exec (g (value (props this))) w1
   | Some {| ctx_value := _; ctx_onValueChange := None |} => w1
   | None => w1
   end).
Proof.
  intros Hen. unfold pressRow.
  rewrite row_onPress_rendered, Hen, resolvePress_exec.
  cbn [hp_onPress hp_onValueChange hp_value].
  destruct context as [[v [g|]]|]; reflexivity.
Qed.

(** C3. With [disabled] true the row carries no press handler, whatever
    [onPress] and the channel are, and a press changes nothing. *)
Theorem press_disabled_inert hp this context (w : W) :
  disabled (props this) = Some true ->
  row_onPress (rendered hp this context) = None /\
  pressRow (rendered hp this context) w = (tt, w).
Proof.
  intros Hdis. unfold pressRow.
  rewrite row_onPress_rendered, Hdis. cbn. split; reflexivity.
Qed.

(** C4. When the item has no [onPress] and there is no [onValueChange] to
    reach, because there is no channel or because the channel carries
    none, a press on an enabled item returns nothing and leaves the state
    as it was. *)
Theorem press_without_callbacks_noop this context (w : W) :
  truthy (disabled (props this)) = false ->
  onPress (props this) = None ->
  (context = None \/
   exists c, context = Some c /\ ctx_onValueChange c = None) ->
  pressRow (rendered resolvePress this context) w = (tt, w).
Proof.
  intros Hen Hp Hc. unfold pressRow.
  rewrite row_onPress_rendered, Hen, resolvePress_exec.
  cbn [hp_onPress hp_onValueChange hp_value]. rewrite Hp.
  destruct Hc as [-> | (c & -> & Hc)]; cbn; [|rewrite Hc]; reflexivity.
Qed.

(** ** Rendering *)


(** C7. Replacing [style] and [labelStyle] changes neither the press
    handler of the row, nor what a press does, nor the props and the
    checked state of the indicator. *)
Theorem styles_not_behavioural hp this (s ls : StyleProp) context :
  let this' := {| props := with_styles (props this) s ls;
                  state := state this |} in
  row_onPress (rendered hp this' context) =
    row_onPress (rendered hp this context) /\
  pressRow (rendered hp this' context) =
    pressRow (rendered hp this context) /\
  indicators (rendered hp this' context) =
    indicators (rendered hp this context) /\
  indicatorChecked hp this' context = indicatorChecked hp this context.
Proof. repeat split. Qed.

(** The effective colour of the label: the last entry of the style array
    that defines [color] wins. *)
Lemma label_color_rendered hp this context :
  map (fun t => flatten (fst t) !! "color")
      (texts (rendered hp this context)) =
    [ Some (default (SStr (text (colors (theme (props this)))))
                    (flatten (labelStyle (props this)) !! "color")) ].
Proof.
  rewrite rendered_unfold.
  cbn [texts elements flat_map app omap list_omap map fst].
  f_equal.
  change [styles_label;
          StyleObject {[ "color" := SStr (text (colors (theme (props this)))) ]};
          labelStyle (props this)]
    with ([styles_label;
           StyleObject {[ "color" := SStr (text (colors (theme (props this)))) ]}]
            ++ [labelStyle (props this)])%list.
  rewrite flatten_last_wins.
  destruct (flatten (labelStyle (props this)) !! "color"); [reflexivity|].
  change [styles_label;
          StyleObject {[ "color" := SStr (text (colors (theme (props this)))) ]}]
    with ([styles_label]
            ++ [StyleObject {[ "color" := SStr (text (colors (theme (props this)))) ]}])%list.
  rewrite flatten_last_wins. cbn [flatten].
  by rewrite lookup_singleton_eq.
Qed.

(** C8. The label's colour is the [color] of [labelStyle] when it has
    one and the theme's text colour otherwise; the indicator is handed
    [color] and [uncheckedColor] as the item received them. *)
Theorem label_and_indicator_colors hp this context :
  map (fun t => flatten (fst t) !! "color")
      (texts (rendered hp this context)) =
    [ Some (default (SStr (text (colors (theme (props this)))))
                    (flatten (labelStyle (props this)) !! "color")) ] /\
  map rb_color (indicators (rendered hp this context)) =
    [ color (props this) ] /\
  map rb_uncheckedColor (indicators (rendered hp this context)) =
    [ uncheckedColor (props this) ].
Proof.
  split; [apply label_color_rendered|].
  rewrite indicators_rendered. split; reflexivity.
Qed.

(** C9. The row carries a press handler exactly when [disabled] is not
    truthy, whatever [onPress] and the channel are; with neither an
    [onPress] nor a channel the handler of an enabled item is still
    there and a press leaves the state as it was. *)
Theorem enabled_row_always_interactive this context :
  (forall hp,
     is_Some (row_onPress (rendered hp this context)) <->
     truthy (disabled (props this)) = false) /\
  (truthy (disabled (props this)) = false ->
   onPress (props this) = None ->
   context = None ->
   exists h,
     row_onPress (rendered resolvePress this context) = Some h /\
     forall w, h w = (tt, w)).
Proof.
  split.
  - intros hp. rewrite row_onPress_rendered.
    destruct (truthy (disabled (props this))); split.
    + intros [h Hh]; discriminate.
    + discriminate.
    + reflexivity.
    + eauto.
  - intros Hen Hp ->. rewrite row_onPress_rendered, Hen.
    eexists; split; [reflexivity|].
    intros w. rewrite resolvePress_exec. cbn. by rewrite Hp.
Qed.

(** C10. One and the same string, the item's [value], is the [value] of
    the indicator and the [value] of the call to [handlePress] that the
    row's handler makes. *)
Theorem same_value_to_dispatch_and_indicator hp this context :
  exists rb,
    indicators (rendered hp this context) = [rb] /\
    rb_value rb = value (props this) /\
    row_onPress (rendered hp this context) =
      if truthy (disabled (props this)) then None
      else Some (hp {| hp_onPress := onPress (props this);
                       hp_onValueChange := context_onValueChange context;
                       hp_value := rb_value rb |}).
Proof.
  eexists. rewrite indicators_rendered, row_onPress_rendered.
  split; [reflexivity|]. split; reflexivity.
Qed.

(** ** What else [render] shows *)

(** X1. The container's effective style: an attribute that [style]
    defines has the value [style] gives it (also the five attributes of
    [styles.container]); every other attribute is as in
    [styles.container]. *)
Theorem container_style_merge hp this context (k : string) :
  map (fun v => flatten (fst v) !! k) (views (rendered hp this context)) =
  [ match flatten (style (props this)) !! k with
    | Some v => Some v
    | None => flatten styles_container !! k
    end ].
Proof.
  rewrite rendered_unfold.
  cbn [views elements flat_map app omap list_omap map fst].
  f_equal.
  change [styles_container; style (props this)]
    with ([styles_container] ++ [style (props this)])%list.
  rewrite flatten_last_wins.
  destruct (flatten (style (props this)) !! k); [reflexivity|].
  change [styles_container] with ([] ++ [styles_container])%list.
  rewrite flatten_last_wins.
  destruct (flatten styles_container !! k); reflexivity.
Qed.

(** X2. The label's effective style: an attribute that [labelStyle]
    defines has the value [labelStyle] gives it; otherwise [color] is the
    theme's text colour, [fontSize] is 16, and nothing else is set. *)
Theorem label_style_merge hp this context (k : string) :
  map (fun t => flatten (fst t) !! k) (texts (rendered hp this context)) =
  [ match flatten (labelStyle (props this)) !! k with
    | Some v => Some v
    | None =>
        if decide (k = "color")
        then Some (SStr (text (colors (theme (props this)))))
        else if decide (k = "fontSize") then Some (SNum 16) else None
    end ].
Proof.
  rewrite rendered_unfold.
  cbn [texts elements flat_map app omap list_omap map fst].
  f_equal.
  change [styles_label;
          StyleObject {[ "color" := SStr (text (colors (theme (props this)))) ]};
          labelStyle (props this)]
    with ([styles_label;
           StyleObject {[ "color" := SStr (text (colors (theme (props this)))) ]}]
            ++ [labelStyle (props this)])%list.
  rewrite flatten_last_wins.
  destruct (flatten (labelStyle (props this)) !! k); [reflexivity|].
  change [styles_label;
          StyleObject {[ "color" := SStr (text (colors (theme (props this)))) ]}]
    with ([styles_label]
            ++ [StyleObject {[ "color" := SStr (text (colors (theme (props this)))) ]}])%list.
  rewrite flatten_last_wins.
  change [styles_label] with ([] ++ [styles_label])%list.
  rewrite flatten_last_wins. cbn [flatten styles_label foldl app].
  destruct (decide (k = "color")) as [->|Hc].
  - by rewrite lookup_singleton_eq.
  - rewrite lookup_singleton_ne by done.
    destruct (decide (k = "fontSize")) as [->|Hf].
    + by rewrite lookup_insert_eq.
    + rewrite lookup_insert_ne by done. by rewrite !lookup_empty.
Qed.

(** X3. The item reads the channel through [onValueChange] alone: two
    channels with the same [onValueChange] (whatever their values), or no
    channel and a channel without [onValueChange], give the same tree. *)
Theorem channel_read_through_onValueChange hp this
  (c1 c2 : option (RadioButtonContextType W)) :
  context_onValueChange c1 = context_onValueChange c2 ->
  rendered hp this c1 = rendered hp this c2.
Proof. intros Hc. rewrite !rendered_unfold. by rewrite Hc. Qed.

(** X4. What the row wraps, the container with the label and the
    indicator, is there for every item and is the same whatever
    [handlePress], the item's [onPress] and the channel are. *)
Theorem content_free_of_callbacks hp hp' this (f : option (Eff W unit))
  (c c' : option (RadioButtonContextType W)) :
  is_Some (row_child (rendered hp this c)) /\
  row_child
    (rendered hp' {| props := with_onPress (props this) f;
                     state := state this |} c') =
  row_child (rendered hp this c).
Proof. rewrite !rendered_unfold. split; [eauto|reflexivity]. Qed.

(** X5. Row and indicator agree on being disabled: the indicator's
    [disabled] is truthy exactly when the row carries no press handler. *)
Theorem indicator_disabled_iff_row_inert hp this context :
  map (fun rb => truthy (rb_disabled rb))
      (indicators (rendered hp this context)) =
  [ negb (bool_decide (is_Some (row_onPress (rendered hp this context)))) ].
Proof.
  rewrite indicators_rendered, row_onPress_rendered.
  cbn [map rb_disabled].
  destruct (truthy (disabled (props this))); reflexivity.
Qed.

End Properties.

(** ** The properties at concrete items *)

(** A channel that logs the calls to [onValueChange]. *)
Lemma press_enabled_dispatch_witness :
  let this := item "second" "Second item" None (Some logOnPress) None in
  let channel := {| ctx_value := Some "first";
                    ctx_onValueChange := Some logOnValueChange |} in
  truthy (disabled (props this)) = false /\
  pressRow (rendered resolvePress this (Some channel)) [] =
    (tt, [CallOnPress; CallOnValueChange "second"]).
Proof.
  intros this channel. split; [reflexivity|].
  exact (press_enabled_dispatch this (Some channel) [] eq_refl).
Defined.

Lemma press_disabled_inert_witness :
  let this := item "second" "Second item" (Some true) (Some logOnPress) None in
  let channel := {| ctx_value := Some "first";
                    ctx_onValueChange := Some logOnValueChange |} in
  disabled (props this) = Some true /\
  row_onPress (rendered resolvePress this (Some channel)) = None /\
  pressRow (rendered resolvePress this (Some channel)) [] = (tt, []).
Proof.
  intros this channel. split; [reflexivity|].
  exact (press_disabled_inert resolvePress this (Some channel) [] eq_refl).
Defined.

Lemma press_without_callbacks_noop_witness :
  let this : Component (list Call) unit :=
    item "second" "Second item" (Some false) None None in
  truthy (disabled (props this)) = false /\
  onPress (props this) = None /\
  pressRow (rendered resolvePress this None) [CallOnPress] =
    (tt, [CallOnPress]).
Proof.
  intros this. split; [reflexivity|]. split; [reflexivity|].
  exact (press_without_callbacks_noop this None [CallOnPress]
           eq_refl eq_refl (or_introl eq_refl)).
Defined.

Lemma enabled_row_always_interactive_witness :
  let this : Component (list Call) unit :=
    item "first" "First item" None None None in
  truthy (disabled (props this)) = false /\
  onPress (props this) = None /\
  exists h,
    row_onPress (rendered resolvePress this None) = Some h /\
    forall w, h w = (tt, w).
Proof.
  intros this. split; [reflexivity|]. split; [reflexivity|].
  exact (proj2 (enabled_row_always_interactive this None)
           eq_refl eq_refl eq_refl).
Defined.

(** Order and argument of the calls, on the log. *)
Example press_logs_onPress_then_onValueChange :
  exec (pressRow
          (rendered resolvePress
             (item "second" "Second item" (Some false) (Some logOnPress) None)
             (Some {| ctx_value := Some "first";
                      ctx_onValueChange := Some logOnValueChange |})))
       [] =
  [CallOnPress; CallOnValueChange "second"].
Proof. reflexivity. Qed.

(** A channel that holds no selected value yet is notified all the same. *)
Example press_notifies_channel_without_value :
  exec (pressRow
          (rendered resolvePress
             (item "second" "Second item" None (Some logOnPress) None)
             (Some {| ctx_value := None;
                      ctx_onValueChange := Some logOnValueChange |})))
       [] =
  [CallOnPress; CallOnValueChange "second"].
Proof. reflexivity. Qed.

Example press_standalone_logs_onPress_only :
  exec (pressRow
          (rendered resolvePress
             (item "second" "Second item" None (Some logOnPress) None)
             None))
       [] =
  [CallOnPress].
Proof. reflexivity. Qed.

Example press_disabled_logs_nothing :
  exec (pressRow
          (rendered resolvePress
             (item "second" "Second item" (Some true) (Some logOnPress) None)
             (Some {| ctx_value := Some "first";
                      ctx_onValueChange := Some logOnValueChange |})))
       [] =
  [].
Proof. reflexivity. Qed.

(** Two items in one group: "first" is selected, a press on the second item
    selects "second", and the indicators follow. *)
Example group_of_two_items :
  let A : Component (option string) unit :=
    item "first" "First item" None None None in
  let B : Component (option string) unit :=
    item "second" "Second item" None None None in
  let before := Some "first" in
  let after :=
    exec (pressRow (rendered resolvePress B (Some (groupChannel before))))
         before in
  indicatorChecked resolvePress A (Some (groupChannel before)) = [true] /\
  indicatorChecked resolvePress B (Some (groupChannel before)) = [false] /\
  after = Some "second" /\
  indicatorChecked resolvePress A (Some (groupChannel after)) = [false] /\
  indicatorChecked resolvePress B (Some (groupChannel after)) = [true].
Proof. repeat split. Qed.

(** Without [pointerEvents="none"] on the container the indicator would
    answer a touch on it by itself. *)
Example unshielded_indicator_captures (rb : RadioButtonProps) :
  responder
    (TouchableRipple (Some logOnPress)
       (View StyleFalsy None [Text StyleFalsy "First item"; RadioButton rb]))
    [0; 1] =
  Some (ByIndicator rb).
Proof. reflexivity. Qed.

(** A [labelStyle] with a colour overrides the theme's text colour, one
    without leaves it. *)
Example label_color_override :
  let this : Component unit unit :=
    {| props := with_styles (props (item "first" "First item" None None None))
                  StyleFalsy
                  (StyleArray [StyleObject {[ "color" := SStr "#ff0000" ]};
                               StyleFalsy]);
       state := tt |} in
  map (fun t => flatten (fst t) !! "color")
      (texts (rendered resolvePress this None)) =
  [Some (SStr "#ff0000")].
Proof.
  intros this.
  rewrite (label_color_rendered resolvePress this None).
  reflexivity.
Qed.


Lemma channel_read_through_onValueChange_witness :
  let this := item "second" "Second item" None (Some logOnPress) None in
  let c1 := Some {| ctx_value := Some "first";
                    ctx_onValueChange := Some logOnValueChange |} in
  let c2 := Some {| ctx_value := Some "second";
                    ctx_onValueChange := Some logOnValueChange |} in
  context_onValueChange c1 = context_onValueChange c2 /\
  rendered resolvePress this c1 = rendered resolvePress this c2.
Proof.
  intros this c1 c2. split; [reflexivity|].
  exact (channel_read_through_onValueChange resolvePress this c1 c2 eq_refl).
Defined.
